(** * sazabi: a logging facade over go.uber.org/zap

    Shallow embedding of [logger.go] (package [sazabi]) and of the part of
    the zap library that the package drives: configuration values, the
    build step, functional options, the sugared logger and the process-wide
    [logger] variable.  Effects (assignment to the global, writes to the
    sink, Go panics, process exit) are threaded through a small state and
    completion monad. *)

From Stdlib Require Import String Ascii ZArith List Bool Lia.
Import ListNotations.

Local Open Scope string_scope.
Local Open Scope Z_scope.

(** Go's [error] values are carried as their message. *)
Definition error := string.

(* ------------------------------------------------------------------ *)
(** ** Go run time: how a call completes *)

(** The value carried by a Go panic.  [any] is the type of the values
    an [interface{}] argument may hold; the facade never inspects them. *)
Inductive PanicValue (any : Type) : Type :=
| PanicError (err : error)
| NilDereference
| PanicMessage (template : string) (fmtArgs : list any).

Arguments PanicError {any} err.
Arguments NilDereference {any}.
Arguments PanicMessage {any} template fmtArgs.

(** A call returns normally, unwinds with a panic, or ends the process
    ([os.Exit]). *)
Inductive Completion (any A : Type) : Type :=
| Normal (a : A)
| GoPanic (v : PanicValue any)
| OsExit (code : Z).

Arguments Normal {any A} a.
Arguments GoPanic {any A} v.
Arguments OsExit {any A} code.

(* ------------------------------------------------------------------ *)
(** ** go.uber.org/zap/zapcore

    Modelled from the spec: the packages [zapcore] and [zap] are the
    external structured logging library the package configures; none of
    their code is under src/.  The two modules below carry the types the
    package names and the configuration knobs the spec requires of the
    collaborator: level filtering, sampling by burst and rate, encoders,
    output sinks and the caller-frame skip. *)

Module zapcore.

(** [zapcore.Level] is an [int8]; the named levels and their numbers. *)
Inductive Level : Type :=
| DebugLevel | InfoLevel | WarnLevel | ErrorLevel
| DPanicLevel | PanicLevel | FatalLevel.

Definition Level_int8 (l : Level) : Z :=
  match l with
  | DebugLevel => -1
  | InfoLevel => 0
  | WarnLevel => 1
  | ErrorLevel => 2
  | DPanicLevel => 3
  | PanicLevel => 4
  | FatalLevel => 5
  end.

(** [func (l Level) Enabled(lvl Level) bool { return lvl >= l }] *)
Definition Enabled (l lvl : Level) : bool :=
  Level_int8 l <=? Level_int8 lvl.

(** [Level.CapitalString], what [CapitalLevelEncoder] emits. *)
Definition CapitalString (l : Level) : string :=
  match l with
  | DebugLevel => "DEBUG"
  | InfoLevel => "INFO"
  | WarnLevel => "WARN"
  | ErrorLevel => "ERROR"
  | DPanicLevel => "DPANIC"
  | PanicLevel => "PANIC"
  | FatalLevel => "FATAL"
  end.

(** The encoder fields of [EncoderConfig] are function values; the
    library's named encoders are enumerated, and Go's [nil] is [None]. *)
Inductive LevelEncoder : Type :=
| LowercaseLevelEncoder | LowercaseColorLevelEncoder
| CapitalLevelEncoder | CapitalColorLevelEncoder.

Inductive TimeEncoder : Type :=
| EpochTimeEncoder | EpochMillisTimeEncoder | EpochNanosTimeEncoder
| ISO8601TimeEncoder | RFC3339TimeEncoder | RFC3339NanoTimeEncoder.

Inductive DurationEncoder : Type :=
| SecondsDurationEncoder | NanosDurationEncoder
| MillisDurationEncoder | StringDurationEncoder.

Inductive CallerEncoder : Type :=
| FullCallerEncoder | ShortCallerEncoder.

Inductive NameEncoder : Type :=
| FullNameEncoder.

(** [const DefaultLineEnding = "\n"] *)
Definition DefaultLineEnding : string :=
  String (ascii_of_nat 10) EmptyString.

(** [const OmitKey = ""] *)
Definition OmitKey : string := "".

Record EncoderConfig : Type := mkEncoderConfig {
  MessageKey : string;
  LevelKey : string;
  TimeKey : string;
  NameKey : string;
  CallerKey : string;
  FunctionKey : string;
  StacktraceKey : string;
  SkipLineEnding : bool;
  LineEnding : string;
  EncodeLevel : option LevelEncoder;
  EncodeTime : option TimeEncoder;
  EncodeDuration : option DurationEncoder;
  EncodeCaller : option CallerEncoder;
  EncodeName : option NameEncoder;
  ConsoleSeparator : string
}.

End zapcore.

(* ------------------------------------------------------------------ *)
(** ** go.uber.org/zap: configuration *)

Module zap.

Import zapcore.

Record SamplingConfig : Type := mkSamplingConfig {
  Initial : Z;
  Thereafter : Z
}.

(** [zap.Config].  [Level] is an [AtomicLevel], a wrapper around a
    pointer: [None] is the zero [AtomicLevel{}].  [Sampling] is a
    pointer, [None] is [nil].  [InitialFields] is left [nil] by every
    configuration of this package and is not carried. *)
Record Config : Type := mkConfig {
  Level : option zapcore.Level;
  Development : bool;
  DisableCaller : bool;
  DisableStacktrace : bool;
  Sampling : option SamplingConfig;
  Encoding : string;
  EncoderConfig : zapcore.EncoderConfig;
  OutputPaths : list string;
  ErrorOutputPaths : list string
}.

(** The assignment [conf.DisableStacktrace = b] on a [Config] value. *)
Definition set_DisableStacktrace (b : bool) (conf : Config) : Config :=
  {| Level := Level conf;
     Development := Development conf;
     DisableCaller := DisableCaller conf;
     DisableStacktrace := b;
     Sampling := Sampling conf;
     Encoding := Encoding conf;
     EncoderConfig := EncoderConfig conf;
     OutputPaths := OutputPaths conf;
     ErrorOutputPaths := ErrorOutputPaths conf |}.

(** [zap.NewAtomicLevelAt] *)
Definition NewAtomicLevelAt (l : zapcore.Level) : option zapcore.Level :=
  Some l.

(** Modelled from the spec: [zap.NewDevelopmentEncoderConfig] belongs to
    the external logging library and is not under src/.  The spec calls
    the result the human-readable development format; the keys and
    encoders are the library's documented ones. *)
Definition NewDevelopmentEncoderConfig : zapcore.EncoderConfig :=
  {| MessageKey := "M";
     LevelKey := "L";
     TimeKey := "T";
     NameKey := "N";
     CallerKey := "C";
     FunctionKey := zapcore.OmitKey;
     StacktraceKey := "S";
     SkipLineEnding := false;
     LineEnding := zapcore.DefaultLineEnding;
     EncodeLevel := Some CapitalLevelEncoder;
     EncodeTime := Some ISO8601TimeEncoder;
     EncodeDuration := Some StringDurationEncoder;
     EncodeCaller := Some ShortCallerEncoder;
     EncodeName := None;
     ConsoleSeparator := "" |}.

(** Modelled from the spec: [zap.NewDevelopmentConfig] belongs to the
    external logging library and is not under src/.  The decision table
    of the spec gives its row: minimum level Debug, development mode
    true, no sampling, human-readable format; stack traces are left at
    the library default (not disabled), output goes to standard error. *)
Definition NewDevelopmentConfig : Config :=
  {| Level := NewAtomicLevelAt DebugLevel;
     Development := true;
     DisableCaller := false;
     DisableStacktrace := false;
     Sampling := None;
     Encoding := "console";
     EncoderConfig := NewDevelopmentEncoderConfig;
     OutputPaths := ["stderr"];
     ErrorOutputPaths := ["stderr"] |}.


(* ---------------------------------------------------------------- *)
(** *** The logger and its functional options *)

(** Modelled from the spec: the core of the external library's logger,
    not under src/: the encoder it serialises with, the sinks it writes
    to, the level threshold, and the burst+rate sampler wrapped around
    it ([None]: no sampling). *)
Record Core : Type := mkCore {
  core_encoding : string;
  core_encoderConfig : zapcore.EncoderConfig;
  core_sinks : list string;
  core_level : zapcore.Level;
  core_sampler : option SamplingConfig
}.

(** Modelled from the spec: [zap.Logger], not under src/.  [addStack]
    is the lowest level (as an [int8]) at which a stack trace is
    attached; [callerSkip] is the number of frames skipped when the
    caller is reported. *)
Record Logger : Type := mkLogger {
  core : Core;
  development : bool;
  addCaller : bool;
  errorOutput : list string;
  addStack : Z;
  callerSkip : Z
}.

(** Whether an entry of level [lvl] gets a stack trace from [log]. *)
Definition takesStack (log : Logger) (lvl : zapcore.Level) : bool :=
  addStack log <=? Level_int8 lvl.

(** Modelled from the spec: the library's functional options (level
    filtering, sampling by burst+rate, output sinks, caller-frame-skip),
    not under src/. *)
Inductive Option : Type :=
| ErrorOutput (w : list string)
| DevelopmentOpt
| AddCaller
| AddStacktrace (lvl : zapcore.Level)
| AddCallerSkip (skip : Z)
| WrapCoreSampler (scfg : SamplingConfig).

Definition apply (o : Option) (log : Logger) : Logger :=
  match o with
  | ErrorOutput w =>
      mkLogger (core log) (development log) (addCaller log) w
               (addStack log) (callerSkip log)
  | DevelopmentOpt =>
      mkLogger (core log) true (addCaller log) (errorOutput log)
               (addStack log) (callerSkip log)
  | AddCaller =>
      mkLogger (core log) (development log) true (errorOutput log)
               (addStack log) (callerSkip log)
  | AddStacktrace lvl =>
      mkLogger (core log) (development log) (addCaller log)
               (errorOutput log) (Level_int8 lvl) (callerSkip log)
  | AddCallerSkip skip =>
      (* log.callerSkip += skip *)
      mkLogger (core log) (development log) (addCaller log)
               (errorOutput log) (addStack log) (callerSkip log + skip)
  | WrapCoreSampler scfg =>
      mkLogger (mkCore (core_encoding (core log))
                       (core_encoderConfig (core log))
                       (core_sinks (core log))
                       (core_level (core log))
                       (Some scfg))
               (development log) (addCaller log) (errorOutput log)
               (addStack log) (callerSkip log)
  end.

(** [log.WithOptions(opts...)]: a copy with the options applied in
    order. *)
Definition WithOptions (log : Logger) (opts : list Option) : Logger :=
  fold_left (fun l o => apply o l) opts log.

(** [zap.New(core, options...)]: no caller annotation, no stack trace
    at any level ([FatalLevel + 1]), nothing skipped. *)
Definition New (c : Core) (opts : list Option) : Logger :=
  WithOptions
    (mkLogger c false false ["stderr"] (Level_int8 FatalLevel + 1) 0)
    opts.

(** [Config.buildOptions] *)
Definition buildOptions (cfg : Config) (errSink : list string)
  : list Option :=
  [ErrorOutput errSink]
  ++ (if Development cfg then [DevelopmentOpt] else [])
  ++ (if negb (DisableCaller cfg) then [AddCaller] else [])
  ++ (let stackLevel :=
        if Development cfg then WarnLevel else ErrorLevel in
      if negb (DisableStacktrace cfg)
      then [AddStacktrace stackLevel] else [])
  ++ (match Sampling cfg with
      | Some scfg => [WrapCoreSampler scfg]
      | None => []
      end).

(** The process environment the library builds against: whether an
    encoder can be constructed for an encoding name, and whether the
    output and error sinks can be opened.  [Some err] is the failure. *)
Record Host : Type := mkHost {
  newEncoder : string -> zapcore.EncoderConfig -> option error;
  openSinks : list string -> list string -> option error
}.

(** Modelled from the spec: [Config.Build], the build step
    [build(config) -> Logger | BuildError] of the external library, not
    under src/.  It fails when the encoder or a sink cannot be realised
    or the level is missing, and otherwise yields a logger carrying the
    options of the configuration. *)
Definition Build (host : Host) (cfg : Config) : Logger + error :=
  match newEncoder host (Encoding cfg) (EncoderConfig cfg) with
  | Some err => inr err
  | None =>
      match openSinks host (OutputPaths cfg) (ErrorOutputPaths cfg) with
      | Some err => inr err
      | None =>
          match Level cfg with
          | None => inr "missing Level"
          | Some lvl =>
              inl (New (mkCore (Encoding cfg) (EncoderConfig cfg)
                               (OutputPaths cfg) lvl None)
                       (buildOptions cfg (ErrorOutputPaths cfg)))
          end
      end
  end.

(** A host with the stock encoders registered and able to open the
    standard streams only. *)
Definition stockHost : Host :=
  {| newEncoder := fun name ecfg =>
       if negb (TimeKey ecfg =? "")%string
          && match EncodeTime ecfg with None => true | Some _ => false end
       then Some "missing EncodeTime in EncoderConfig"
       else if ((name =? "console") || (name =? "json"))%string
            then None
            else Some "no encoder registered";
     openSinks := fun outs errs =>
       if forallb (fun p => ((p =? "stdout") || (p =? "stderr"))%string)
                  (outs ++ errs)
       then None
       else Some "cannot open sink" |}.

(** A host on which no sink can be opened. *)
Definition closedHost : Host :=
  {| newEncoder := newEncoder stockHost;
     openSinks := fun _ _ => Some "cannot open sink" |}.

(* ---------------------------------------------------------------- *)
(** *** The sugared logger *)

(** [zap.SugaredLogger] wraps a [Logger]. *)
Record SugaredLogger : Type := mkSugared { base : Logger }.

(** [Logger.Sugar]: the wrapper's own two frames are skipped. *)
Definition Sugar (log : Logger) : SugaredLogger :=
  mkSugared (apply (AddCallerSkip 2) log).


(** An entry handed to the core of [ent_Logger]: the level, and the
    template, arguments and key/value context exactly as the sugared
    call received them (rendering is the encoder's business). *)
Record Entry (any : Type) : Type := mkEntry {
  ent_Level : zapcore.Level;
  ent_Template : string;
  ent_FmtArgs : list any;
  ent_Context : list any;
  ent_Logger : Logger
}.

Arguments mkEntry {any} _ _ _ _ _.
Arguments ent_Level {any} _.
Arguments ent_Template {any} _.
Arguments ent_FmtArgs {any} _.
Arguments ent_Context {any} _.
Arguments ent_Logger {any} _.

(** What has been handed to the sink, oldest entry first. *)
Definition Sink (any : Type) : Type := list (Entry any).

Section Sugared.

Context {any : Type}.

(** Modelled from the spec: [SugaredLogger.log], the level filter of the
    external library, not under src/.  A call below [DPanicLevel] that
    the core does not enable does nothing; otherwise the entry goes to
    the core when its level is enabled, and then [PanicLevel] panics with
    the message and [FatalLevel] exits the process. *)
Definition log (s : SugaredLogger) (lvl : zapcore.Level)
    (template : string) (fmtArgs context : list any)
  : Sink any -> Sink any * Completion any unit :=
  fun out =>
    let enabled := Enabled (core_level (core (base s))) lvl in
    if (Level_int8 lvl <? Level_int8 DPanicLevel) && negb enabled
    then (out, Normal tt)
    else
      let out' :=
        if enabled
        then (out ++ [mkEntry lvl template fmtArgs context (base s)])%list
        else out in
      (out',
       match lvl with
       | PanicLevel => GoPanic (PanicMessage template fmtArgs)
       | FatalLevel => OsExit 1
       | DPanicLevel =>
           if development (base s)
           then GoPanic (PanicMessage template fmtArgs)
           else Normal tt
       | _ => Normal tt
       end).

(** The eighteen methods of the sugared logger: plain ([Sprint] style),
    formatted ([Sprintf] style) and structured (message plus key/value
    pairs), at each severity. *)
Definition Debug s (args : list any) := log s DebugLevel "" args [].
Definition Debugf s template (args : list any) :=
  log s DebugLevel template args [].
Definition Debugw s msg (keysAndValues : list any) :=
  log s DebugLevel msg [] keysAndValues.

Definition Info s (args : list any) := log s InfoLevel "" args [].
Definition Infof s template (args : list any) :=
  log s InfoLevel template args [].
Definition Infow s msg (keysAndValues : list any) :=
  log s InfoLevel msg [] keysAndValues.

Definition Warn s (args : list any) := log s WarnLevel "" args [].
Definition Warnf s template (args : list any) :=
  log s WarnLevel template args [].
Definition Warnw s msg (keysAndValues : list any) :=
  log s WarnLevel msg [] keysAndValues.

Definition Error s (args : list any) := log s ErrorLevel "" args [].
Definition Errorf s template (args : list any) :=
  log s ErrorLevel template args [].
Definition Errorw s msg (keysAndValues : list any) :=
  log s ErrorLevel msg [] keysAndValues.

Definition Fatal s (args : list any) := log s FatalLevel "" args [].
Definition Fatalf s template (args : list any) :=
  log s FatalLevel template args [].
Definition Fatalw s msg (keysAndValues : list any) :=
  log s FatalLevel msg [] keysAndValues.

Definition Panic s (args : list any) := log s PanicLevel "" args [].
Definition Panicf s template (args : list any) :=
  log s PanicLevel template args [].
Definition Panicw s msg (keysAndValues : list any) :=
  log s PanicLevel msg [] keysAndValues.

End Sugared.

End zap.

(* ------------------------------------------------------------------ *)
(** ** Strings: case folding and trimming

    Neither function is called by the package; they serve to name the
    labels that differ from a constant only in letter case or in
    surrounding white space. *)







(* ------------------------------------------------------------------ *)
(** ** package sazabi (logger.go) *)

Module sazabi.

Import zapcore zap.

(** Environment constants for logging configuration. *)
Definition ProductionEnvName : string := "production".
Definition ProductionEnvShortName : string := "prod".

(** [newProductionEncoderConfig]; fields the literal leaves out take
    Go's zero value. *)
Definition newProductionEncoderConfig : zapcore.EncoderConfig :=
  {| TimeKey := "ts";
     LevelKey := "level";
     NameKey := "logger";
     CallerKey := "caller";
     MessageKey := "msg";
     StacktraceKey := "stacktrace";
     LineEnding := zapcore.DefaultLineEnding;
     EncodeLevel := Some CapitalLevelEncoder;
     EncodeTime := Some ISO8601TimeEncoder;
     EncodeDuration := Some SecondsDurationEncoder;
     EncodeCaller := Some ShortCallerEncoder;
     FunctionKey := "";
     SkipLineEnding := false;
     EncodeName := None;
     ConsoleSeparator := "" |}.

(** [newProductionConfig]; [DisableCaller] and [DisableStacktrace] are
    not in the literal and are [false]. *)
Definition newProductionConfig : zap.Config :=
  {| Level := zap.NewAtomicLevelAt InfoLevel;
     Development := false;
     Sampling := Some {| Initial := 100; Thereafter := 100 |};
     Encoding := "console";
     EncoderConfig := newProductionEncoderConfig;
     OutputPaths := ["stderr"];
     ErrorOutputPaths := ["stderr"];
     DisableCaller := false;
     DisableStacktrace := false |}.

(** Lines 26-31 of [Initialize]: the configuration chosen for the
    environment label, before stack traces are switched off. *)
Definition Initialize_select (environment : string) : zap.Config :=
  let conf := newProductionConfig in
  if negb (environment =? ProductionEnvName)%string
     && negb (environment =? ProductionEnvShortName)%string
  then zap.NewDevelopmentConfig
  else conf.

(** Lines 26-33 of [Initialize]: the configuration handed to [Build]. *)
Definition Initialize_conf (environment : string) : zap.Config :=
  let conf := Initialize_select environment in
  zap.set_DisableStacktrace true conf.

(** Line 171-173 of [Default]: the configuration handed to [Build]. *)
Definition Default_conf : zap.Config :=
  let conf := zap.NewDevelopmentConfig in
  zap.set_DisableStacktrace true conf.

(** [log.WithOptions(zap.AddCallerSkip(1)).Sugar()], the last line of
    both [Initialize] and [Default]. *)
Definition finish (log : zap.Logger) : zap.SugaredLogger :=
  zap.Sugar (zap.WithOptions log [zap.AddCallerSkip 1]).

Section Process.

Context {any : Type}.
Variable host : zap.Host.

(** The process state the package touches: the package-level variable
    [logger] (an interface value, [None] is [nil]) and what has reached
    the standard-error sink. *)
Record World : Type := mkWorld {
  logger : option zap.SugaredLogger;
  stderr : zap.Sink any
}.

(** The state of a process that has not called [Initialize]:
    [var logger log.Logger] holds its zero value. *)
Definition initial : World := {| logger := None; stderr := [] |}.

(** A Go call: a state transformer that ends in a completion. *)
Definition Go (A : Type) : Type := World -> World * Completion any A.

Definition ret {A} (a : A) : Go A := fun w => (w, Normal a).

Definition bind {A B} (m : Go A) (k : A -> Go B) : Go B :=
  fun w =>
    match m w with
    | (w', Normal a) => k a w'
    | (w', GoPanic v) => (w', GoPanic v)
    | (w', OsExit c) => (w', OsExit c)
    end.

Definition panic {A} (v : PanicValue any) : Go A :=
  fun w => (w, GoPanic v).

(** Read and write of the package-level variable. *)
Definition load_logger : Go (option zap.SugaredLogger) :=
  fun w => (w, Normal (logger w)).

Definition store_logger (s : zap.SugaredLogger) : Go unit :=
  fun w => ({| logger := Some s; stderr := stderr w |}, Normal tt).

(** A method call on the interface value: on [nil] the run time panics
    with a nil dereference; otherwise the method runs against the sink. *)
Definition method (l : option zap.SugaredLogger)
    (m : zap.SugaredLogger -> zap.Sink any ->
         zap.Sink any * Completion any unit) : Go unit :=
  fun w =>
    match l with
    | None => (w, GoPanic NilDereference)
    | Some s =>
        let (out, c) := m s (stderr w) in
        ({| logger := logger w; stderr := out |}, c)
    end.

Notation "x <- c1 ;; c2" := (bind c1 (fun x => c2))
  (at level 61, c1 at next level, right associativity).

(** [Initialize] sets up the logger based on the specified environment.
    If an error occurs during logger initialization, the application
    panics. *)
Definition Initialize (environment : string) : Go unit :=
  let conf := Initialize_conf environment in
  match zap.Build host conf with
  | inr err => panic (PanicError err)
  | inl log => store_logger (finish log)
  end.

(** [Default] creates and returns a default logger configured for the
    development environment; it panics if building the logger fails. *)
Definition Default : Go zap.SugaredLogger :=
  let conf := Default_conf in
  match zap.Build host conf with
  | inr err => panic (PanicError err)
  | inl log => ret (finish log)
  end.

(** The global facade: each function calls the method of the same name
    on the package-level [logger]. *)
Definition Debug (args : list any) : Go unit :=
  l <- load_logger ;; method l (fun s => zap.Debug s args).
Definition Debugf (template : string) (args : list any) : Go unit :=
  l <- load_logger ;; method l (fun s => zap.Debugf s template args).
Definition Debugw (msg : string) (keysValues : list any) : Go unit :=
  l <- load_logger ;; method l (fun s => zap.Debugw s msg keysValues).

Definition Info (args : list any) : Go unit :=
  l <- load_logger ;; method l (fun s => zap.Info s args).
Definition Infof (template : string) (args : list any) : Go unit :=
  l <- load_logger ;; method l (fun s => zap.Infof s template args).
Definition Infow (msg : string) (keysValues : list any) : Go unit :=
  l <- load_logger ;; method l (fun s => zap.Infow s msg keysValues).

Definition Warn (args : list any) : Go unit :=
  l <- load_logger ;; method l (fun s => zap.Warn s args).
Definition Warnf (template : string) (args : list any) : Go unit :=
  l <- load_logger ;; method l (fun s => zap.Warnf s template args).
Definition Warnw (msg : string) (keysValues : list any) : Go unit :=
  l <- load_logger ;; method l (fun s => zap.Warnw s msg keysValues).

Definition Error (args : list any) : Go unit :=
  l <- load_logger ;; method l (fun s => zap.Error s args).
Definition Errorf (template : string) (args : list any) : Go unit :=
  l <- load_logger ;; method l (fun s => zap.Errorf s template args).
Definition Errorw (msg : string) (keysValues : list any) : Go unit :=
  l <- load_logger ;; method l (fun s => zap.Errorw s msg keysValues).

Definition Fatal (args : list any) : Go unit :=
  l <- load_logger ;; method l (fun s => zap.Fatal s args).
Definition Fatalf (template : string) (args : list any) : Go unit :=
  l <- load_logger ;; method l (fun s => zap.Fatalf s template args).
Definition Fatalw (msg : string) (keysValues : list any) : Go unit :=
  l <- load_logger ;; method l (fun s => zap.Fatalw s msg keysValues).

Definition Panic (args : list any) : Go unit :=
  l <- load_logger ;; method l (fun s => zap.Panic s args).
Definition Panicf (template : string) (args : list any) : Go unit :=
  l <- load_logger ;; method l (fun s => zap.Panicf s template args).
Definition Panicw (msg : string) (keysValues : list any) : Go unit :=
  l <- load_logger ;; method l (fun s => zap.Panicw s msg keysValues).

(** One constructor per exported logging function, with its arguments;
    [run] dispatches to the function itself. *)
Inductive Call : Type :=
| CDebug (args : list any)
| CDebugf (template : string) (args : list any)
| CDebugw (msg : string) (keysValues : list any)
| CInfo (args : list any)
| CInfof (template : string) (args : list any)
| CInfow (msg : string) (keysValues : list any)
| CWarn (args : list any)
| CWarnf (template : string) (args : list any)
| CWarnw (msg : string) (keysValues : list any)
| CError (args : list any)
| CErrorf (template : string) (args : list any)
| CErrorw (msg : string) (keysValues : list any)
| CFatal (args : list any)
| CFatalf (template : string) (args : list any)
| CFatalw (msg : string) (keysValues : list any)
| CPanic (args : list any)
| CPanicf (template : string) (args : list any)
| CPanicw (msg : string) (keysValues : list any).

Definition run (c : Call) : Go unit :=
  match c with
  | CDebug a => Debug a
  | CDebugf t a => Debugf t a
  | CDebugw m kv => Debugw m kv
  | CInfo a => Info a
  | CInfof t a => Infof t a
  | CInfow m kv => Infow m kv
  | CWarn a => Warn a
  | CWarnf t a => Warnf t a
  | CWarnw m kv => Warnw m kv
  | CError a => Error a
  | CErrorf t a => Errorf t a
  | CErrorw m kv => Errorw m kv
  | CFatal a => Fatal a
  | CFatalf t a => Fatalf t a
  | CFatalw m kv => Fatalw m kv
  | CPanic a => Panic a
  | CPanicf t a => Panicf t a
  | CPanicw m kv => Panicw m kv
  end.


(** The host can realise a configuration: its encoder can be
    constructed and its sinks opened. *)
Definition realisable (cfg : zap.Config) : Prop :=
  zap.newEncoder host (zap.Encoding cfg) (zap.EncoderConfig cfg) = None
  /\ zap.openSinks host (zap.OutputPaths cfg) (zap.ErrorOutputPaths cfg)
     = None.

(* ------------------------------------------------------------------ *)
(** ** The configuration resolver *)

Lemma Initialize_select_production (environment : string) :
  environment = ProductionEnvName \/ environment = ProductionEnvShortName ->
  Initialize_select environment = newProductionConfig.
Proof.
  unfold Initialize_select.
  intros [-> | ->]; reflexivity.
Qed.

Lemma Initialize_select_development (environment : string) :
  environment <> ProductionEnvName ->
  environment <> ProductionEnvShortName ->
  Initialize_select environment = zap.NewDevelopmentConfig.
Proof.
  intros Hlong Hshort. unfold Initialize_select.
  apply String.eqb_neq in Hlong. apply String.eqb_neq in Hshort.
  rewrite Hlong, Hshort. reflexivity.
Qed.

(** The branch of [Initialize] is decided by exact equality with one of
    the two constants, and by nothing else. *)
Lemma Initialize_select_cases (environment : string) :
  (environment = ProductionEnvName \/ environment = ProductionEnvShortName)
  \/ (environment <> ProductionEnvName
      /\ environment <> ProductionEnvShortName).
Proof.
  destruct (String.eqb_spec environment ProductionEnvName) as [E1 | N1].
  - left. left. exact E1.
  - destruct (String.eqb_spec environment ProductionEnvShortName)
      as [E2 | N2].
    + left. right. exact E2.
    + right. split; assumption.
Qed.

(** C1: for the labels "production" and "prod" the configuration that
    [Initialize] resolves has minimum level Info, development mode off,
    sampling 100 then every 100th, console encoding and stack traces
    disabled. *)
Theorem production_configuration (environment : string) :
  environment = "production" \/ environment = "prod" ->
  let conf := Initialize_conf environment in
  zap.Level conf = Some InfoLevel
  /\ zap.Development conf = false
  /\ zap.Sampling conf = Some {| Initial := 100; Thereafter := 100 |}
  /\ zap.Encoding conf = "console"
  /\ zap.DisableStacktrace conf = true.
Proof.
  intros Henv. unfold Initialize_conf.
  rewrite (Initialize_select_production environment Henv).
  repeat split.
Qed.

(** C2: for every label other than "production" and "prod" the
    configuration that [Initialize] resolves has minimum level Debug,
    development mode on and no sampling policy. *)
Theorem development_configuration (environment : string) :
  environment <> "production" ->
  environment <> "prod" ->
  let conf := Initialize_conf environment in
  zap.Level conf = Some DebugLevel
  /\ zap.Development conf = true
  /\ zap.Sampling conf = None.
Proof.
  intros Hlong Hshort. unfold Initialize_conf.
  rewrite (Initialize_select_development environment Hlong Hshort).
  repeat split.
Qed.

(** C8: the production encoder configuration writes the time under "ts"
    in ISO-8601, the level under "level" in capitals, the logger name
    under "logger", the caller under "caller" in short form, the message
    under "msg" and the stack trace under "stacktrace"; it is the encoder
    configuration of the production configuration. *)
Theorem production_encoder_fields :
  let ecfg := zap.EncoderConfig newProductionConfig in
  ecfg = newProductionEncoderConfig
  /\ (TimeKey ecfg = "ts" /\ EncodeTime ecfg = Some ISO8601TimeEncoder)
  /\ (LevelKey ecfg = "level"
      /\ EncodeLevel ecfg = Some CapitalLevelEncoder)
  /\ NameKey ecfg = "logger"
  /\ (CallerKey ecfg = "caller"
      /\ EncodeCaller ecfg = Some ShortCallerEncoder)
  /\ MessageKey ecfg = "msg"
  /\ StacktraceKey ecfg = "stacktrace".
Proof.
  cbv zeta. unfold newProductionConfig, newProductionEncoderConfig.
  cbn [zap.EncoderConfig TimeKey EncodeTime LevelKey EncodeLevel NameKey
       CallerKey EncodeCaller MessageKey StacktraceKey].
  repeat split.
Qed.


(* ------------------------------------------------------------------ *)
(** ** The build step *)

Lemma set_DisableStacktrace_realisable (b : bool) (cfg : zap.Config) :
  realisable (zap.set_DisableStacktrace b cfg) <-> realisable cfg.
Proof.
  unfold realisable. destruct cfg. cbn. tauto.
Qed.

(** A realisable configuration with a level builds, and the logger is
    the one [New] makes from the options of the configuration. *)
Lemma Build_realisable (cfg : zap.Config) (lvl : zapcore.Level) :
  realisable cfg ->
  zap.Level cfg = Some lvl ->
  zap.Build host cfg =
    inl (zap.New (mkCore (zap.Encoding cfg) (zap.EncoderConfig cfg)
                         (zap.OutputPaths cfg) lvl None)
                 (zap.buildOptions cfg (zap.ErrorOutputPaths cfg))).
Proof.
  intros [Henc Hsinks] Hlvl. unfold zap.Build.
  rewrite Henc, Hsinks, Hlvl. reflexivity.
Qed.

(** Conversely a successful build was of a realisable configuration. *)
Lemma Build_inl_inv (cfg : zap.Config) (log : zap.Logger) :
  zap.Build host cfg = inl log ->
  realisable cfg
  /\ exists lvl,
       zap.Level cfg = Some lvl
       /\ log = zap.New (mkCore (zap.Encoding cfg) (zap.EncoderConfig cfg)
                                (zap.OutputPaths cfg) lvl None)
                        (zap.buildOptions cfg (zap.ErrorOutputPaths cfg)).
Proof.
  unfold zap.Build, realisable.
  destruct (zap.newEncoder host _ _); [discriminate |].
  destruct (zap.openSinks host _ _); [discriminate |].
  destruct (zap.Level cfg) as [lvl |]; [| discriminate].
  intros H. injection H as <-.
  split; [split; reflexivity |].
  exists lvl. split; reflexivity.
Qed.

Lemma Initialize_conf_has_level (environment : string) :
  exists lvl, zap.Level (Initialize_conf environment) = Some lvl.
Proof.
  unfold Initialize_conf.
  destruct (Initialize_select_cases environment) as [Hp | [Hl Hs]].
  - rewrite (Initialize_select_production environment Hp).
    exists InfoLevel. reflexivity.
  - rewrite (Initialize_select_development environment Hl Hs).
    exists DebugLevel. reflexivity.
Qed.

Lemma Initialize_conf_builds (environment : string) :
  realisable (Initialize_conf environment) ->
  exists log, zap.Build host (Initialize_conf environment) = inl log.
Proof.
  intros Hreal.
  destruct (Initialize_conf_has_level environment) as [lvl Hlvl].
  eexists. apply (Build_realisable _ lvl Hreal Hlvl).
Qed.

Lemma Default_conf_builds :
  realisable Default_conf ->
  exists log, zap.Build host Default_conf = inl log.
Proof.
  intros Hreal. eexists.
  apply (Build_realisable _ DebugLevel Hreal). reflexivity.
Qed.

(** What [New] and the options of a configuration set on the logger. *)
Lemma built_fields (cfg : zap.Config) (log : zap.Logger) :
  zap.Build host cfg = inl log ->
  zap.callerSkip log = 0
  /\ zap.development log = zap.Development cfg
  /\ zap.core_sampler (zap.core log) = zap.Sampling cfg
  /\ zap.Level cfg = Some (zap.core_level (zap.core log))
  /\ zap.core_encoding (zap.core log) = zap.Encoding cfg
  /\ zap.addStack log =
       if zap.DisableStacktrace cfg then Level_int8 FatalLevel + 1
       else if zap.Development cfg then Level_int8 WarnLevel
            else Level_int8 ErrorLevel.
Proof.
  intros Hb. apply Build_inl_inv in Hb.
  destruct Hb as [_ [lvl [Hlvl ->]]]. rewrite Hlvl.
  unfold zap.New, zap.WithOptions, zap.buildOptions.
  destruct (zap.Development cfg), (zap.DisableCaller cfg),
    (zap.DisableStacktrace cfg), (zap.Sampling cfg);
    cbn; repeat split; reflexivity.
Qed.

(** [finish] touches the caller skip only. *)
Lemma finish_fields (log : zap.Logger) :
  zap.core (zap.base (finish log)) = zap.core log
  /\ zap.development (zap.base (finish log)) = zap.development log
  /\ zap.addStack (zap.base (finish log)) = zap.addStack log
  /\ zap.callerSkip (zap.base (finish log))
     = zap.callerSkip (zap.base (zap.Sugar log)) + 1.
Proof.
  unfold finish, zap.Sugar, zap.WithOptions. cbn. repeat split. lia.
Qed.

Lemma no_stack_at_any_level (log : zap.Logger) :
  zap.addStack log = Level_int8 FatalLevel + 1 ->
  forall lvl, zap.takesStack log lvl = false.
Proof.
  intros H lvl. unfold zap.takesStack. rewrite H.
  destruct lvl; reflexivity.
Qed.

(* ------------------------------------------------------------------ *)
(** ** Initialize and Default *)

Lemma Initialize_installs (environment : string) (w : World)
    (log : zap.Logger) :
  zap.Build host (Initialize_conf environment) = inl log ->
  Initialize environment w =
    ({| logger := Some (finish log); stderr := stderr w |}, Normal tt).
Proof.
  intros Hb. unfold Initialize. cbv zeta. rewrite Hb. reflexivity.
Qed.

Lemma Initialize_panics (environment : string) (w : World) (err : error) :
  zap.Build host (Initialize_conf environment) = inr err ->
  Initialize environment w = (w, GoPanic (PanicError err)).
Proof.
  intros Hb. unfold Initialize. cbv zeta. rewrite Hb. reflexivity.
Qed.

Lemma Default_returns (w : World) (log : zap.Logger) :
  zap.Build host Default_conf = inl log ->
  Default w = (w, Normal (finish log)).
Proof.
  intros Hb. unfold Default. cbv zeta. rewrite Hb. reflexivity.
Qed.

(** Neither call touches the sink. *)
Lemma Initialize_stderr (environment : string) (w : World) :
  stderr (fst (Initialize environment w)) = stderr w.
Proof.
  unfold Initialize. cbv zeta.
  destruct (zap.Build host (Initialize_conf environment)); reflexivity.
Qed.

(** [Default] has no assignment to the package-level variable. *)
Lemma Default_frame (w : World) : fst (Default w) = w.
Proof.
  unfold Default. cbv zeta.
  destruct (zap.Build host Default_conf); reflexivity.
Qed.

(** A facade call on a [nil] logger. *)
Lemma run_nil (c : Call) (w : World) :
  logger w = None -> run c w = (w, GoPanic NilDereference).
Proof.
  intros Hnil.
  destruct c; cbn; unfold bind, load_logger, method; cbn;
    rewrite Hnil; reflexivity.
Qed.


(* ------------------------------------------------------------------ *)
(** ** Properties of the package *)

(** C3: whatever the first label was, a second [Initialize] that builds
    leaves the one logger of the second label's configuration in the
    package-level variable: the state, and with it every facade call, is
    the same as if only the second call had been made. *)
Theorem reinitialize_replaces (first second : string) (w : World) :
  realisable (Initialize_conf second) ->
  let w2 := fst (Initialize second (fst (Initialize first w))) in
  (exists log,
      zap.Build host (Initialize_conf second) = inl log
      /\ logger w2 = Some (finish log))
  /\ snd (Initialize second (fst (Initialize first w))) = Normal tt
  /\ w2 = fst (Initialize second w)
  /\ forall c, run c w2 = run c (fst (Initialize second w)).
Proof.
  intros Hreal.
  destruct (Initialize_conf_builds second Hreal) as [log Hlog].
  cbv zeta.
  rewrite (Initialize_installs second (fst (Initialize first w)) log Hlog).
  rewrite (Initialize_installs second w log Hlog).
  cbn [fst snd]. rewrite Initialize_stderr.
  split; [exists log; split; [exact Hlog | reflexivity] |].
  repeat split.
Qed.

(** C4: when building the logger from the resolved configuration fails,
    [Initialize] panics with the error, the state untouched and nothing
    recovered; when building succeeds it returns normally with the
    package-level logger set. *)
Theorem Initialize_build_outcome (environment : string) (w : World) :
  (forall err,
      zap.Build host (Initialize_conf environment) = inr err ->
      Initialize environment w = (w, GoPanic (PanicError err)))
  /\ (forall log,
        zap.Build host (Initialize_conf environment) = inl log ->
        snd (Initialize environment w) = Normal tt
        /\ logger (fst (Initialize environment w)) = Some (finish log)).
Proof.
  split.
  - intros err Herr. apply Initialize_panics. exact Herr.
  - intros log Hlog. rewrite (Initialize_installs environment w log Hlog).
    split; reflexivity.
Qed.

(** C5: while the package-level logger is still [nil], each of the
    eighteen facade functions panics with a nil dereference and does
    nothing else; an [Initialize] that did not complete leaves it so. *)
Theorem facade_before_Initialize (c : Call) (w : World) :
  logger w = None ->
  run c w = (w, GoPanic NilDereference)
  /\ forall environment,
       snd (Initialize environment w) <> Normal tt ->
       run c (fst (Initialize environment w))
       = (fst (Initialize environment w), GoPanic NilDereference).
Proof.
  intros Hnil. split.
  - apply run_nil. exact Hnil.
  - intros environment Hfail. apply run_nil.
    unfold Initialize in *. cbv zeta in *.
    destruct (zap.Build host (Initialize_conf environment)).
    + exfalso. apply Hfail. reflexivity.
    + exact Hnil.
Qed.

(** C6: [Default] leaves the process state as it found it, so every
    facade call behaves as before; when the development configuration
    builds, it returns a logger at Debug level, in development mode,
    without sampling, without stack traces, and with the caller skip that
    [Initialize] applies. *)
Theorem Default_independent (w : World) :
  fst (Default w) = w
  /\ (forall c, run c (fst (Default w)) = run c w)
  /\ (realisable Default_conf ->
      exists log,
        zap.Build host Default_conf = inl log
        /\ snd (Default w) = Normal (finish log)
        /\ zap.core_level (zap.core (zap.base (finish log))) = DebugLevel
        /\ zap.development (zap.base (finish log)) = true
        /\ zap.core_sampler (zap.core (zap.base (finish log))) = None
        /\ (forall lvl, zap.takesStack (zap.base (finish log)) lvl = false)
        /\ zap.callerSkip (zap.base (finish log))
           = zap.callerSkip (zap.base (zap.Sugar log)) + 1).
Proof.
  split; [apply Default_frame |].
  split; [intros c; rewrite Default_frame; reflexivity |].
  intros Hreal.
  destruct (Default_conf_builds Hreal) as [log Hlog].
  exists log. split; [exact Hlog |].
  rewrite (Default_returns w log Hlog). cbn [snd].
  destruct (built_fields _ _ Hlog) as (Hskip & Hdev & Hsamp & Hlvl & _ & Hst).
  destruct (finish_fields log) as (Hcore & Hdev' & Hst' & Hskip').
  rewrite Hcore, Hdev', Hdev, Hsamp.
  cbn in Hlvl. injection Hlvl as Hlvl.
  repeat split; try (symmetry; exact Hlvl); try exact Hskip'.
  apply no_stack_at_any_level. rewrite Hst'. exact Hst.
Qed.

(** C7: in both branches the configuration [Initialize] chose had stack
    traces enabled, as the library leaves them, and [Initialize] disables
    them: the logger it installs attaches a stack trace at no level,
    where the chosen configuration would have attached one to a Fatal
    entry.  The same holds for [Default]. *)
Theorem stack_traces_disabled (environment : string) (w : World) :
  (zap.DisableStacktrace (Initialize_select environment) = false
   /\ zap.DisableStacktrace (Initialize_conf environment) = true
   /\ zap.DisableStacktrace zap.NewDevelopmentConfig = false
   /\ zap.DisableStacktrace Default_conf = true)
  /\ (realisable (Initialize_conf environment) ->
      exists s,
        Initialize environment w
        = ({| logger := Some s; stderr := stderr w |}, Normal tt)
        /\ forall lvl, zap.takesStack (zap.base s) lvl = false)
  /\ (realisable Default_conf ->
      exists s,
        Default w = (w, Normal s)
        /\ forall lvl, zap.takesStack (zap.base s) lvl = false)
  /\ (forall log,
        zap.Build host (Initialize_select environment) = inl log ->
        zap.takesStack (zap.base (finish log)) FatalLevel = true)
  /\ (forall log,
        zap.Build host zap.NewDevelopmentConfig = inl log ->
        zap.takesStack (zap.base (finish log)) FatalLevel = true).
Proof.
  assert (Hdefault :
            zap.DisableStacktrace (Initialize_select environment) = false).
  { destruct (Initialize_select_cases environment) as [Hp | [Hl Hs]].
    - rewrite (Initialize_select_production environment Hp). reflexivity.
    - rewrite (Initialize_select_development environment Hl Hs).
      reflexivity. }
  split; [repeat split; exact Hdefault |].
  split; [| split; [| split]].
  - intros Hreal.
    destruct (Initialize_conf_builds environment Hreal) as [log Hlog].
    exists (finish log).
    split; [apply Initialize_installs; exact Hlog |].
    apply no_stack_at_any_level.
    destruct (built_fields _ _ Hlog) as (_ & _ & _ & _ & _ & Hst).
    destruct (finish_fields log) as (_ & _ & Hst' & _).
    rewrite Hst'. exact Hst.
  - intros Hreal.
    destruct (Default_conf_builds Hreal) as [log Hlog].
    exists (finish log).
    split; [apply Default_returns; exact Hlog |].
    apply no_stack_at_any_level.
    destruct (built_fields _ _ Hlog) as (_ & _ & _ & _ & _ & Hst).
    destruct (finish_fields log) as (_ & _ & Hst' & _).
    rewrite Hst'. exact Hst.
  - intros log Hlog.
    destruct (built_fields _ _ Hlog) as (_ & _ & _ & _ & _ & Hst).
    destruct (finish_fields log) as (_ & _ & Hst' & _).
    unfold zap.takesStack. rewrite Hst', Hst, Hdefault.
    destruct (zap.Development (Initialize_select environment));
      reflexivity.
  - intros log Hlog.
    destruct (built_fields _ _ Hlog) as (_ & _ & _ & _ & _ & Hst).
    destruct (finish_fields log) as (_ & _ & Hst' & _).
    unfold zap.takesStack. rewrite Hst', Hst. reflexivity.
Qed.

(** C9: the logger [Initialize] installs, and the one [Default] returns,
    skip exactly one frame more than the sugared form of the logger that
    was built, which itself skips none beyond the wrapper's own. *)
Theorem caller_skip_one (environment : string) (w : World) :
  (realisable (Initialize_conf environment) ->
   exists log,
     zap.Build host (Initialize_conf environment) = inl log
     /\ Initialize environment w
        = ({| logger := Some (finish log); stderr := stderr w |}, Normal tt)
     /\ zap.callerSkip log = 0
     /\ zap.callerSkip (zap.base (finish log))
        = zap.callerSkip (zap.base (zap.Sugar log)) + 1)
  /\ (realisable Default_conf ->
      exists log,
        zap.Build host Default_conf = inl log
        /\ Default w = (w, Normal (finish log))
        /\ zap.callerSkip log = 0
        /\ zap.callerSkip (zap.base (finish log))
           = zap.callerSkip (zap.base (zap.Sugar log)) + 1).
Proof.
  split; intros Hreal.
  - destruct (Initialize_conf_builds environment Hreal) as [log Hlog].
    exists log. split; [exact Hlog |].
    split; [apply Initialize_installs; exact Hlog |].
    split; [apply (built_fields _ _ Hlog) | apply finish_fields].
  - destruct (Default_conf_builds Hreal) as [log Hlog].
    exists log. split; [exact Hlog |].
    split; [apply Default_returns; exact Hlog |].
    split; [apply (built_fields _ _ Hlog) | apply finish_fields].
Qed.

End Process.

(* ------------------------------------------------------------------ *)
(** ** The properties at concrete inputs *)

Lemma stockHost_realises_Initialize (environment : string) :
  realisable zap.stockHost (Initialize_conf environment).
Proof.
  unfold Initialize_conf.
  apply set_DisableStacktrace_realisable.
  destruct (Initialize_select_cases environment) as [Hp | [Hl Hs]].
  - rewrite (Initialize_select_production environment Hp).
    split; reflexivity.
  - rewrite (Initialize_select_development environment Hl Hs).
    split; reflexivity.
Qed.

Lemma production_configuration_witness :
  ("prod" = "production" \/ "prod" = "prod")
  /\ zap.Level (Initialize_conf "prod") = Some InfoLevel
  /\ zap.Development (Initialize_conf "prod") = false
  /\ zap.Sampling (Initialize_conf "prod")
     = Some {| Initial := 100; Thereafter := 100 |}
  /\ zap.Encoding (Initialize_conf "prod") = "console"
  /\ zap.DisableStacktrace (Initialize_conf "prod") = true.
Proof.
  split.
  - right. reflexivity.
  - apply (production_configuration "prod"). right. reflexivity.
Defined.

Lemma development_configuration_witness :
  ("test" <> "production" /\ "test" <> "prod")
  /\ zap.Level (Initialize_conf "test") = Some DebugLevel
  /\ zap.Development (Initialize_conf "test") = true
  /\ zap.Sampling (Initialize_conf "test") = None.
Proof.
  split.
  - split; discriminate.
  - apply (development_configuration "test"); discriminate.
Defined.


Lemma reinitialize_replaces_witness :
  realisable zap.stockHost (Initialize_conf "development")
  /\ fst (Initialize zap.stockHost "development"
            (fst (Initialize zap.stockHost "production" (@initial string))))
     = fst (Initialize zap.stockHost "development" initial).
Proof.
  assert (H : realisable zap.stockHost (Initialize_conf "development")).
  { split; reflexivity. }
  split.
  - exact H.
  - exact (proj1 (proj2 (proj2
      (reinitialize_replaces zap.stockHost "production" "development"
         (@initial string) H)))).
Defined.

Lemma Initialize_build_outcome_witness :
  Initialize zap.closedHost "prod" (@initial string)
  = (initial, GoPanic (PanicError "cannot open sink"))
  /\ snd (Initialize zap.stockHost "prod" (@initial string)) = Normal tt.
Proof.
  split.
  - exact (proj1
      (Initialize_build_outcome zap.closedHost "prod" (@initial string))
      "cannot open sink" eq_refl).
  - exact (proj1 (proj2
      (Initialize_build_outcome zap.stockHost "prod" (@initial string))
      _ eq_refl)).
Defined.

Lemma facade_before_Initialize_witness :
  logger (@initial string) = None
  /\ run (CInfof "started %s" ["now"]) (@initial string)
     = (initial, GoPanic NilDereference).
Proof.
  split.
  - reflexivity.
  - exact (proj1
      (facade_before_Initialize zap.stockHost
         (CInfof "started %s" ["now"]) (@initial string) eq_refl)).
Defined.

Lemma Default_independent_witness :
  realisable zap.stockHost Default_conf
  /\ fst (Default zap.stockHost (@initial string)) = initial
  /\ exists s,
       snd (Default zap.stockHost (@initial string)) = Normal s
       /\ zap.core_level (zap.core (zap.base s)) = DebugLevel
       /\ zap.core_sampler (zap.core (zap.base s)) = None.
Proof.
  assert (H : realisable zap.stockHost Default_conf).
  { split; reflexivity. }
  split; [exact H |].
  destruct (Default_independent zap.stockHost (@initial string))
    as (Hframe & _ & Hlogger).
  split; [exact Hframe |].
  destruct (Hlogger H) as (log & _ & Hret & Hlvl & _ & Hsamp & _).
  exists (finish log). split; [exact Hret |]. split; assumption.
Defined.

Lemma stack_traces_disabled_witness :
  realisable zap.stockHost (Initialize_conf "production")
  /\ exists s,
       Initialize zap.stockHost "production" (@initial string)
       = ({| logger := Some s; stderr := [] |}, Normal tt)
       /\ forall lvl, zap.takesStack (zap.base s) lvl = false.
Proof.
  assert (H : realisable zap.stockHost (Initialize_conf "production")).
  { split; reflexivity. }
  split; [exact H |].
  exact (proj1 (proj2
    (stack_traces_disabled zap.stockHost "production" (@initial string)))
    H).
Defined.

Lemma caller_skip_one_witness :
  realisable zap.stockHost (Initialize_conf "staging")
  /\ exists log,
       zap.Build zap.stockHost (Initialize_conf "staging") = inl log
       /\ Initialize zap.stockHost "staging" (@initial string)
          = ({| logger := Some (finish log); stderr := [] |}, Normal tt)
       /\ zap.callerSkip log = 0
       /\ zap.callerSkip (zap.base (finish log))
          = zap.callerSkip (zap.base (zap.Sugar log)) + 1.
Proof.
  assert (H : realisable zap.stockHost (Initialize_conf "staging")).
  { split; reflexivity. }
  split; [exact H |].
  exact (proj1
    (caller_skip_one zap.stockHost "staging" (@initial string)) H).
Defined.

(** The labels the package documents as non-production because of their
    spelling. *)
Example spelled_differently :
  Initialize_conf "Production" = Default_conf
  /\ Initialize_conf "PROD" = Default_conf
  /\ Initialize_conf " prod" = Default_conf
  /\ Initialize_conf "" = Default_conf.
Proof. repeat split. Qed.

(** After [Initialize("production")] a Debug call writes nothing and an
    Info call writes its entry; after a further
    [Initialize("development")] the Debug call is written too. *)
Example threshold_follows_last_Initialize :
  let prod := fst (Initialize zap.stockHost "production" (@initial string)) in
  let dev := fst (Initialize zap.stockHost "development" prod) in
  stderr (fst (Debug ["d"] prod)) = []
  /\ map zap.ent_Level (stderr (fst (Info ["i"] prod))) = [InfoLevel]
  /\ map zap.ent_Level (stderr (fst (Debug ["d"] dev))) = [DebugLevel]
  /\ map zap.ent_FmtArgs (stderr (fst (Debugf "retry %d of %d" ["2"; "5"] dev)))
     = [["2"; "5"]].
Proof. repeat split. Qed.

(** Fatal and Panic calls write their entry and then end the process or
    unwind. *)
Example fatal_and_panic_complete :
  let prod := fst (Initialize zap.stockHost "prod" (@initial string)) in
  snd (Fatal ["f"] prod) = OsExit 1
  /\ snd (Panicw "p" ["k"; "v"] prod) = GoPanic (PanicMessage "p" [])
  /\ map zap.ent_Level (stderr (fst (Fatal ["f"] prod))) = [FatalLevel].
Proof. repeat split. Qed.

(* ------------------------------------------------------------------ *)
(** ** Further properties of the facade *)


(** The world a successful [Initialize] leaves, with the threshold of
    the installed logger. *)
Lemma Initialize_world {any : Type} (host : zap.Host)
    (environment : string) (w : @World any) :
  realisable host (Initialize_conf environment) ->
  exists log lvl,
    zap.Build host (Initialize_conf environment) = inl log
    /\ zap.Level (Initialize_conf environment) = Some lvl
    /\ zap.core_level (zap.core (zap.base (finish log))) = lvl
    /\ Initialize host environment w
       = ({| logger := Some (finish log); stderr := stderr w |}, Normal tt).
Proof.
  intros Hreal.
  destruct (Initialize_conf_builds host environment Hreal) as [log Hlog].
  destruct (built_fields host _ _ Hlog) as (_ & _ & _ & Hlvl & _).
  destruct (finish_fields log) as (Hcore & _).
  exists log, (zap.core_level (zap.core log)).
  split; [exact Hlog |]. split; [exact Hlvl |].
  split; [rewrite Hcore; reflexivity |].
  apply Initialize_installs. exact Hlog.
Qed.


(** X2: the label matters only through whether it is one of the two
    production names: two labels resolve the same configuration exactly
    when both are production names or neither is, and then [Initialize]
    behaves identically on them. *)
Theorem label_classes {any : Type} (first second : string) :
  (Initialize_conf first = Initialize_conf second <->
   ((first = ProductionEnvName \/ first = ProductionEnvShortName) <->
    (second = ProductionEnvName \/ second = ProductionEnvShortName)))
  /\ (((first = ProductionEnvName \/ first = ProductionEnvShortName) <->
       (second = ProductionEnvName \/ second = ProductionEnvShortName)) ->
      forall (host : zap.Host) (w : @World any),
        Initialize host first w = Initialize host second w).
Proof.
  assert (Hconf :
    ((first = ProductionEnvName \/ first = ProductionEnvShortName) <->
     (second = ProductionEnvName \/ second = ProductionEnvShortName)) ->
    Initialize_conf first = Initialize_conf second).
  { intros Hsame. unfold Initialize_conf.
    destruct (Initialize_select_cases first) as [Hp1 | [Hl1 Hs1]].
    - rewrite (Initialize_select_production first Hp1).
      rewrite (Initialize_select_production second (proj1 Hsame Hp1)).
      reflexivity.
    - destruct (Initialize_select_cases second) as [Hp2 | [Hl2 Hs2]].
      + destruct (proj2 Hsame Hp2); contradiction.
      + rewrite (Initialize_select_development first Hl1 Hs1).
        rewrite (Initialize_select_development second Hl2 Hs2).
        reflexivity. }
  split; [split; [| exact Hconf] |].
  - unfold Initialize_conf. intros Heq.
    destruct (Initialize_select_cases first) as [Hp1 | [Hl1 Hs1]];
      destruct (Initialize_select_cases second) as [Hp2 | [Hl2 Hs2]].
    + tauto.
    + rewrite (Initialize_select_production first Hp1) in Heq.
      rewrite (Initialize_select_development second Hl2 Hs2) in Heq.
      discriminate Heq.
    + rewrite (Initialize_select_development first Hl1 Hs1) in Heq.
      rewrite (Initialize_select_production second Hp2) in Heq.
      discriminate Heq.
    + tauto.
  - intros Hsame host w. unfold Initialize. cbv zeta.
    rewrite (Hconf Hsame). reflexivity.
Qed.

(** X3: for a label that is not a production name, [Default] and
    [Initialize] build the same logger: [Default] returns exactly the
    logger [Initialize] would install, and panics with exactly the value
    [Initialize] would panic with. *)
Theorem Default_matches_Initialize {any : Type} (host : zap.Host)
    (environment : string) (w : @World any) :
  environment <> ProductionEnvName ->
  environment <> ProductionEnvShortName ->
  (forall s,
      Default host w = (w, Normal s) <->
      Initialize host environment w
      = ({| logger := Some s; stderr := stderr w |}, Normal tt))
  /\ (forall v,
        Default host w = (w, GoPanic v) <->
        Initialize host environment w = (w, GoPanic v)).
Proof.
  intros Hl Hs.
  unfold Default, Initialize, Initialize_conf, Default_conf. cbv zeta.
  rewrite (Initialize_select_development environment Hl Hs).
  destruct (zap.Build host
              (zap.set_DisableStacktrace true zap.NewDevelopmentConfig))
    as [log | err]; unfold ret, panic, store_logger.
  - split.
    + intros s. split; intros H; injection H as <-; reflexivity.
    + intros v. split; intros H; discriminate H.
  - split.
    + intros s. split; intros H; discriminate H.
    + intros v. split; intros H; injection H as <-; reflexivity.
Qed.

(** X4: no label can make [Initialize] panic: on a host that realises
    the production and the development configuration, [Initialize]
    returns normally with a logger installed whatever the label, and
    [Default] returns a logger. *)
Theorem no_label_panics {any : Type} (host : zap.Host)
    (environment : string) (w : @World any) :
  realisable host newProductionConfig ->
  realisable host zap.NewDevelopmentConfig ->
  snd (Initialize host environment w) = Normal tt
  /\ logger (fst (Initialize host environment w)) <> None
  /\ exists s, Default host w = (w, Normal s).
Proof.
  intros Hprod Hdev.
  assert (Hreal : realisable host (Initialize_conf environment)).
  { unfold Initialize_conf. apply set_DisableStacktrace_realisable.
    destruct (Initialize_select_cases environment) as [Hp | [Hl Hs]].
    - rewrite (Initialize_select_production environment Hp). exact Hprod.
    - rewrite (Initialize_select_development environment Hl Hs).
      exact Hdev. }
  destruct (Initialize_world host environment w Hreal)
    as (log & lvl & _ & _ & _ & Hinit).
  rewrite Hinit. cbn [fst snd logger].
  split; [reflexivity |]. split; [discriminate |].
  assert (Hdef : realisable host Default_conf).
  { unfold Default_conf. apply set_DisableStacktrace_realisable.
    exact Hdev. }
  destruct (Default_conf_builds host Hdef) as [dlog Hdlog].
  exists (finish dlog). apply Default_returns. exact Hdlog.
Qed.



(** X7: on an initialised logger the function called decides how the
    call completes, whatever the threshold: the Debug, Info, Warn and
    Error functions return normally, the Fatal functions end the process
    with status 1, and the Panic functions panic with the caller's
    message; none fails with a nil dereference. *)
Theorem completion_by_function {any : Type} (c : Call) (w : @World any)
    (s : zap.SugaredLogger) :
  logger w = Some s ->
  snd (run c w) =
    match c with
    | CFatal _ | CFatalf _ _ | CFatalw _ _ => OsExit 1
    | CPanic args => GoPanic (PanicMessage "" args)
    | CPanicf template args => GoPanic (PanicMessage template args)
    | CPanicw msg _ => GoPanic (PanicMessage msg [])
    | _ => Normal tt
    end.
Proof.
  intros Hs.
  destruct c; cbn; unfold bind, load_logger, method; cbn; rewrite Hs;
    unfold zap.Debug, zap.Debugf, zap.Debugw, zap.Info, zap.Infof,
      zap.Infow, zap.Warn, zap.Warnf, zap.Warnw, zap.Error, zap.Errorf,
      zap.Errorw, zap.Fatal, zap.Fatalf, zap.Fatalw, zap.Panic,
      zap.Panicf, zap.Panicw;
    unfold zap.log;
    destruct (Enabled (zap.core_level (zap.core (zap.base s))) _);
    reflexivity.
Qed.


(* ------------------------------------------------------------------ *)
(** ** The further properties at concrete inputs *)

Lemma label_classes_witness :
  (("prod" = ProductionEnvName \/ "prod" = ProductionEnvShortName) <->
   ("production" = ProductionEnvName
    \/ "production" = ProductionEnvShortName))
  /\ Initialize zap.stockHost "prod" (@initial string)
     = Initialize zap.stockHost "production" initial.
Proof.
  assert (H : ("prod" = ProductionEnvName
               \/ "prod" = ProductionEnvShortName) <->
              ("production" = ProductionEnvName
               \/ "production" = ProductionEnvShortName)).
  { split; intros _; [left | right]; reflexivity. }
  split; [exact H |].
  exact (proj2 (@label_classes string "prod" "production") H
           zap.stockHost initial).
Defined.

Lemma Default_matches_Initialize_witness :
  ("staging" <> ProductionEnvName /\ "staging" <> ProductionEnvShortName)
  /\ forall s,
       Default zap.stockHost (@initial string) = (initial, Normal s) <->
       Initialize zap.stockHost "staging" (@initial string)
       = ({| logger := Some s; stderr := [] |}, Normal tt).
Proof.
  split; [split; discriminate |].
  destruct (Default_matches_Initialize zap.stockHost "staging"
              (@initial string)) as [H _];
    [discriminate | discriminate | exact H].
Defined.

Lemma no_label_panics_witness :
  (realisable zap.stockHost newProductionConfig
   /\ realisable zap.stockHost zap.NewDevelopmentConfig)
  /\ snd (Initialize zap.stockHost "qa" (@initial string)) = Normal tt
  /\ logger (fst (Initialize zap.stockHost "qa" (@initial string))) <> None
  /\ exists s, Default zap.stockHost (@initial string) = (initial, Normal s).
Proof.
  assert (Hp : realisable zap.stockHost newProductionConfig).
  { split; reflexivity. }
  assert (Hd : realisable zap.stockHost zap.NewDevelopmentConfig).
  { split; reflexivity. }
  split; [split; assumption |].
  exact (no_label_panics zap.stockHost "qa" (@initial string) Hp Hd).
Defined.



Lemma completion_by_function_witness :
  exists s,
    logger (fst (Initialize zap.stockHost "prod" (@initial string))) = Some s
    /\ snd (run (CFatalf "cannot bind %s" [":80"])
                (fst (Initialize zap.stockHost "prod" (@initial string))))
       = OsExit 1.
Proof.
  eexists. split; [reflexivity |].
  exact (completion_by_function (CFatalf "cannot bind %s" [":80"])
           (fst (Initialize zap.stockHost "prod" (@initial string)))
           _ eq_refl).
Defined.


End sazabi.
